(** * mission-ctrl: the worker registry and the worker sagas

  A shallow embedding of [src/state/workers.js] (the registry reducer
  and its action creators) and of the generator protocol driven by
  [src/sagas/transpiler.test.js] and the watcher saga tests.

  JavaScript values are dynamically typed, so actions, payloads and
  yielded effects live in one [value] universe; Immutable maps built by
  [fromJS] are finite maps with string keys. *)

From Stdlib Require Import ZArith.
From stdpp Require Import base option list strings gmap fin_maps.

Local Open Scope string_scope.
Local Open Scope list_scope.

(** ** JavaScript values *)

Module JS.

(** Numbers are restricted to integers: the registry and the sagas never
    compute with them, only their truthiness is observed. *)
#[warnings="-register-all"]
Inductive value : Type :=
| VUndefined
| VNull
| VBool (b : bool)
| VNum (n : Z)
| VStr (s : string)
| VArr (items : list value)
| VObj (fields : list (string * value)).

Inductive exn : Type := TypeError.

(** Outcome of evaluating an expression that may throw. *)
Inductive result (A : Type) : Type :=
| Ok (a : A)
| Throw (e : exn).
Arguments Ok {A} a.
Arguments Throw {A} e.

#[global] Instance result_ret : MRet result := λ A a, Ok a.
#[global] Instance result_bind : MBind result := λ A B f m,
  match m with
  | Ok a => f a
  | Throw e => Throw e
  end.

(** Own-property lookup in an object literal: the first binding wins. *)
Fixpoint assoc (k : string) (fields : list (string * value)) : option value :=
  match fields with
  | [] => None
  | (k', v) :: rest => if bool_decide (k' = k) then Some v else assoc k rest
  end.

(** [v.k]: reading a property of [undefined] or [null] throws a
    TypeError; a missing property reads as [undefined]. *)
Definition get (v : value) (k : string) : result value :=
  match v with
  | VUndefined | VNull => Throw TypeError
  | VObj fields => Ok (default VUndefined (assoc k fields))
  | _ => Ok VUndefined
  end.

(** ToBoolean. *)
Definition truthy (v : value) : bool :=
  match v with
  | VUndefined | VNull => false
  | VBool b => b
  | VNum n => negb (n =? 0)%Z
  | VStr s => negb (bool_decide (s = ""))
  | VArr _ | VObj _ => true
  end.

(** [a || b] *)
Definition or_else (a b : value) : value := if truthy a then a else b.

(** [v === s] for a string constant [s]. *)
Definition is_str (v : value) (s : string) : bool :=
  match v with
  | VStr s' => bool_decide (s' = s)
  | _ => false
  end.

End JS.
Export JS.

(** ** Immutable.js maps *)

Module Immutable.

(** [Map#merge(obj)]: every own key of the object is set, in order. *)
Definition merge (m : gmap string value) (fields : list (string * value))
  : gmap string value :=
  foldl (λ acc kv, <[kv.1 := kv.2]> acc) m fields.

(** [Map#update(key, updater)]: the updater receives the stored value, or
    [undefined] when the key is absent, and its result is stored under
    the key. *)
Definition update {V : Type} (m : gmap string V) (key : string)
    (updater : option V → result V) : result (gmap string V) :=
  newValue ← updater (m !! key);
  Ok (<[key := newValue]> m).

End Immutable.

(** ** redux-actions *)

Module ReduxActions.

(** [createAction(type, payloadCreator)]: the payload creator is applied
    to the arguments of the call. *)
Definition createAction (type : string) (payloadCreator : list value → value)
    (args : list value) : value :=
  VObj [("type", VStr type); ("payload", payloadCreator args)].

(** [handleAction(type, reducer)]: an action of another type leaves the
    state as it is. A function reducer serves both the [next] and the
    [throw] branch, so the action's [error] flag is not consulted. *)
Definition handleAction {S : Type} (type : string)
    (reducer : S → value → result S) (state : S) (action : value)
  : result S :=
  t ← get action "type";
  if is_str t type then reducer state action else Ok state.

(** One link of [reduceReducers]: the next reducer runs on the state the
    previous ones produced, unless one of them has thrown. *)
Definition chain {S : Type} (action : value) (acc : result S)
    (reducer : S → value → result S) : result S :=
  s ← acc; reducer s action.

(** [reduceReducers(...reducers)]:
    [reducers.reduce((p, r) => r(p, action), previous)]. *)
Definition reduceReducers {S : Type} (reducers : list (S → value → result S))
    (previous : S) (action : value) : result S :=
  foldl (chain action) (Ok previous) reducers.

(** [handleActions(handlers, defaultState)]: an [undefined] state is
    replaced by the default, then the per-type reducers run in the order
    of the handler object's keys. *)
Definition handleActions {S : Type}
    (handlers : list (string * (S → value → result S))) (defaultState : S)
    (state : option S) (action : value) : result S :=
  reduceReducers ((λ h, handleAction h.1 h.2) <$> handlers)
                 (default defaultState state) action.

End ReduxActions.

(** ** state/workers.js *)

Module Workers.
Import Immutable ReduxActions.

Definition BUSY := "ship-yard/workers/BUSY".
Definition DONE := "ship-yard/workers/DONE".
Definition ERROR := "ship-yard/workers/ERROR".
Definition OFFLINE := "ship-yard/workers/OFFLINE".
Definition READY := "ship-yard/workers/READY".
Definition STOP := "ship-yard/workers/STOP".

Definition WORKER_BUNDLER := "ship-yard/workers/WORKER_BUNDLER".
Definition WORKER_DEV_SERVER := "ship-yard/workers/WORKER_DEV_SERVER".
Definition WORKER_LINTER := "ship-yard/workers/WORKER_LINTER".
Definition WORKER_TEST_RUNNER := "ship-yard/workers/WORKER_TEST_RUNNER".
Definition WORKER_TRANSPILER := "ship-yard/workers/WORKER_TRANSPILER".
Definition WORKER_WATCHER := "ship-yard/workers/WORKER_WATCHER".

(** The stored state of one worker: an Immutable map of its fields. *)
Abbreviation worker_state := (gmap string value).
(** The registry: worker identifier to worker state. *)
Abbreviation registry := (gmap string (gmap string value)).

(** [fromJS({error: null, name, status: OFFLINE})] *)
Definition offline_worker (name : string) : worker_state :=
  <["error" := VNull]> (<["name" := VStr name]> (<["status" := VStr OFFLINE]> ∅)).

Definition initialState : registry :=
  <[WORKER_BUNDLER := offline_worker "Bundler"]>
  (<[WORKER_DEV_SERVER := offline_worker "Dev Server"]>
  (<[WORKER_LINTER := offline_worker "Linter"]>
  (<[WORKER_TEST_RUNNER := offline_worker "Test Runner"]>
  (<[WORKER_TRANSPILER := offline_worker "Transpiler"]>
  (<[WORKER_WATCHER := offline_worker "Watcher"]> ∅))))).

(** The updater passed to [state.update]: [workerState.merge] throws
    when the worker is not in the registry. *)
Definition mergeStatus (status : string) (payload : value)
    (workerState : option worker_state) : result worker_state :=
  match workerState with
  | None => Throw TypeError
  | Some ws =>
      error ← get payload "error";
      Ok (merge ws [("error", or_else error VNull); ("status", VStr status)])
  end.

(** A registry built by [fromJS] has string keys only, so a worker
    argument that is not a string addresses no entry: the updater is
    then applied to [undefined] and throws. *)
Definition updateStatus (status : string) (state : registry) (action : value)
  : result registry :=
  payload ← get action "payload";
  worker ← get payload "worker";
  match worker with
  | VStr key => update state key (mergeStatus status payload)
  | _ => Throw TypeError
  end.

Definition statuses : list string := [BUSY; DONE; ERROR; OFFLINE; READY; STOP].

Definition handlers : list (string * (registry → value → result registry)) :=
  [(BUSY, updateStatus BUSY);
   (DONE, updateStatus DONE);
   (ERROR, updateStatus ERROR);
   (OFFLINE, updateStatus OFFLINE);
   (READY, updateStatus READY);
   (STOP, updateStatus STOP)].

(** The module's default export. *)
Definition reducer : option registry → value → result registry :=
  handleActions handlers initialState.

(** [worker => ({worker})]: further arguments are dropped. *)
Definition workerPayload (args : list value) : value :=
  VObj [("worker", default VUndefined (head args))].

Definition workerBusy := createAction BUSY workerPayload.
Definition workerDone := createAction DONE workerPayload.
Definition workerError := createAction ERROR workerPayload.
Definition workerOffline := createAction OFFLINE workerPayload.
Definition workerReady := createAction READY workerPayload.
Definition workerStop := createAction STOP workerPayload.

Definition workers : list string :=
  [WORKER_BUNDLER; WORKER_DEV_SERVER; WORKER_LINTER; WORKER_TEST_RUNNER;
   WORKER_TRANSPILER; WORKER_WATCHER].

(** [action.payload.worker]: the worker an action is addressed to. *)
Definition worker_of (action : value) : result value :=
  payload ← get action "payload";
  get payload "worker".

(** What [updateStatus] stores for a worker whose state was [ws]. *)
Definition with_status (status : string) (error : value) (ws : worker_state)
  : worker_state :=
  <["status" := VStr status]> (<["error" := error]> ws).

(** The registry invariant: the keys are the six workers, and each of them
    has a current status, one of the six status constants. *)
Definition registry_ok (s : registry) : Prop :=
  dom s = list_to_set workers ∧
  ∀ w ws, s !! w = Some ws →
    ∃ status, status ∈ statuses ∧ ws !! "status" = Some (VStr status).

End Workers.

(** ** redux-saga effects and the generator protocol *)

Module Saga.

(** The functions the sagas refer to in [call] and [fork] effects. *)
Inductive callee : Type :=
| Glob              (* glob.sync *)
| BabelTranspile    (* utils/babel transpile *)
| TranspileSaga     (* sagas/transpiler transpile *)
| WatchProcess      (* utils/sagas watchProcess *)
| NotifyForeman     (* utils/sagas notifyForeman *)
| ForemanProxy.     (* the bound proxy that sends an action to the foreman *)

(** Effect descriptions, as built by [take], [put], [call] and [fork]. *)
Inductive effect : Type :=
| Take (pattern : string)
| Put (action : value)
| Call (fn : callee) (args : list value)
| Fork (fn : callee) (args : list value).

(** What one [generator.next(v)] reports: [{value, done: false}], or
    [{done: true}], or an exception escaping the generator body. *)
Inductive iteration : Type :=
| Yielded (e : effect)
| Returned
| Thrown (e : exn).

(** One resumption of a generator: the report, the state the generator is
    suspended in afterwards, and the worker programs it launched through
    [forkWorker] while running. *)
Record outcome (St : Type) : Type := Outcome {
  emitted : iteration;
  suspended : St;
  launched : list string;
}.
Arguments Outcome {St} _ _ _.
Arguments emitted {St} _.
Arguments suspended {St} _.
Arguments launched {St} _.

(** The iterator interface of a generator object. [Env] is what the body
    can read from its surroundings when it is resumed (the store, for a
    saga that was handed [getState]). *)
Class Generator (Env St : Type) : Type := {
  start : St;
  next : Env → St → value → outcome St;
}.

(** Resume a generator once per input, collecting the outcomes. *)
Fixpoint run {Env St : Type} {G : Generator Env St} (st : St)
    (inputs : list (Env * value)) : list (outcome St) :=
  match inputs with
  | [] => []
  | (env, v) :: rest =>
      let o := next env st v in
      o :: run (suspended o) rest
  end.

(** The state a generator is left in after a run. *)
Definition state_after {St : Type} (st : St) (os : list (outcome St)) : St :=
  default st (suspended <$> last os).

End Saga.

(** ** state/foreman.js and state/transpiler.js *)

Module Foreman.
Import ReduxActions.

(** Modelled from the spec: state/foreman.js is not among the sources, only
    its names are used by the watcher tests. The spec gives [SetGoal(goal)]
    as an action carrying the goal, here the action's payload; the goals
    are an enumerated set of which the tests use Watch and Lint. *)
Definition SET_GOAL := "ship-yard/foreman/SET_GOAL".
Definition GOAL_WATCH := "ship-yard/foreman/GOAL_WATCH".
Definition GOAL_LINT := "ship-yard/foreman/GOAL_LINT".

(** Modelled from the spec: the action creator of state/foreman.js for
    [SetGoal(goal)]. *)
Definition setGoal : list value → value :=
  createAction SET_GOAL (λ args, default VUndefined (head args)).

End Foreman.

Module TranspilerState.
Import ReduxActions.

(** Modelled from the spec: state/transpiler.js is not among the sources.
    The spec names the worker-specific action [Transpile(path)], whose
    payload is the path, and the [Done] action the worker publishes. *)
Definition TRANSPILE := "ship-yard/transpiler/TRANSPILE".
Definition DONE := "ship-yard/transpiler/DONE".

(** Modelled from the spec: the action creator for [Transpile(path)]. *)
Definition transpileAction : list value → value :=
  createAction TRANSPILE (λ args, default VUndefined (head args)).

(** Modelled from the spec: the action creator for [Done]. *)
Definition done : list value → value :=
  createAction DONE (λ args, default VUndefined (head args)).

End TranspilerState.

(** ** sagas/transpiler.js *)

Module TranspilerSaga.
Import Saga Workers.

(** Where the body of [transpile] is suspended. *)
Inductive transpile_state : Type :=
| TStart        (* not started *)
| TGlobbing     (* at [yield call(glob, ...)] *)
| TCompiling    (* at [yield call(babel.transpile, ...)] *)
| TPublishing   (* at [yield put(done())] *)
| TNotifying    (* at the foreman notification *)
| TFinished.

(** Modelled from the spec: sagas/transpiler.js is not among the sources.
    Scenario C of the spec and the test of [transpile()] give its body:
    glob the sources, hand the file names to the transpile facility with
    base directory src, output directory build and source maps on, publish
    [Done], notify the foreman with [WorkerDone(Transpiler)], and end. *)
Definition transpile_next (st : transpile_state) (v : value)
  : outcome transpile_state :=
  match st with
  | TStart =>
      Outcome (Yielded (Call Glob [VStr "src/**/*.js?(x)"])) TGlobbing []
  | TGlobbing =>
      Outcome (Yielded (Call BabelTranspile
                 [VObj [("baseDir", VStr "src"); ("filenames", v);
                        ("outDir", VStr "build"); ("sourceMaps", VBool true)]]))
              TCompiling []
  | TCompiling =>
      Outcome (Yielded (Put (TranspilerState.done []))) TPublishing []
  | TPublishing =>
      Outcome (Yielded (Call ForemanProxy [workerDone [VStr WORKER_TRANSPILER]]))
              TNotifying []
  | TNotifying | TFinished =>
      Outcome Returned TFinished []
  end.

#[global] Instance transpile : Generator unit transpile_state := {
  start := TStart;
  next := λ _, transpile_next;
}.

(** Where the body of [initTranspiler] is suspended. *)
Inductive init_state : Type :=
| IStart          (* not started *)
| IWatching       (* at the first [yield take(TRANSPILE)] *)
| ITranspiling    (* at [yield call(transpile, path)] *)
| IBeyond         (* at the [yield take(TRANSPILE)] that follows the call *)
| IFinished.

Section InitTranspiler.

(** What the saga does when it is resumed at the take that follows the
    call: neither the spec nor the test of [initTranspiler()] says, so it
    is a parameter of the model. *)
Variable beyond : value → outcome init_state.

(** Modelled from the spec: sagas/transpiler.js is not among the sources.
    The worker program waits for its activating [Transpile] action and
    performs its unit of work with the path the action carries; the test of
    [initTranspiler()] shows it waiting for a [Transpile] action again
    afterwards, and nothing further. Reading the payload of a value that is
    not an object throws, which ends the generator. *)
Definition initTranspiler_next (st : init_state) (v : value)
  : outcome init_state :=
  match st with
  | IStart =>
      Outcome (Yielded (Take TranspilerState.TRANSPILE)) IWatching []
  | IWatching =>
      match get v "payload" with
      | Ok path => Outcome (Yielded (Call TranspileSaga [path])) ITranspiling []
      | Throw e => Outcome (Thrown e) IFinished []
      end
  | ITranspiling =>
      Outcome (Yielded (Take TranspilerState.TRANSPILE)) IBeyond []
  | IBeyond =>
      beyond v
  | IFinished =>
      Outcome Returned IFinished []
  end.

Definition initTranspiler : Generator unit init_state := {|
  start := IStart;
  next := λ _, initTranspiler_next;
|}.

End InitTranspiler.

End TranspilerSaga.

(** ** sagas/watcher.js *)

Module WatcherSaga.
Import Saga Workers Foreman.

(** A worker controller is instantiated per worker: the worker it owns, the
    goals under which that worker must run, the name of the program that
    [forkWorker] launches for it, and the action type that signals the
    worker has come up. *)
Record controller : Type := Controller {
  ctl_worker : string;
  ctl_goals : list string;
  ctl_program : string;
  ctl_signal : string;
}.

(** The states of the controller of section 4.3 of the spec. *)
Inductive controller_state : Type :=
| CStart        (* not started *)
| CWatching     (* 1. Idle / Watching: at [yield take(SET_GOAL)] *)
| CMarked       (* 3. at [yield put(workerBusy(worker))] *)
| CAttaching    (* 4. Launching: at [yield call(watchProcess, process)] *)
| CRelaying     (* 4. Launching: at [yield fork(notifyForeman, relay)] *)
| CAwaiting     (* 5. Awaiting readiness: at [yield take(READY)] *)
| CFinished.

(** [getState().workers.getIn([worker, 'status'])] *)
Definition status_of (store : registry) (worker : string) : value :=
  default VUndefined (store !! worker ≫= λ ws, ws !! "status").

(** Membership of a goal in the served-goal set. *)
Definition serves (c : controller) (goal : value) : bool :=
  existsb (is_str goal) (ctl_goals c).

Section Controller.

(** The process-launch facility (utils/workers), an external collaborator:
    given a program name it returns a process handle. *)
Variable forkWorker : string → value.

(** Modelled from the spec: sagas/watcher.js is not among the sources.
    Section 4.3 of the spec gives the controller: block until a [SetGoal]
    arrives; if the goal is not served, or the worker's status in the
    registry is not [Offline], go back to blocking; otherwise publish
    [WorkerBusy(worker)], fork the worker process, attach the relay from
    the process as a synchronous call, spawn the relay to the process as a
    background task with the result of that call, and block for readiness
    events, staying blocked on an event for another worker and going back
    to watching on the event for this worker. The tests of [startWatcher()]
    fix the yielded effects and the step at which [forkWorker] is called. *)
Definition controller_next (c : controller) (store : registry)
    (st : controller_state) (v : value) : outcome controller_state :=
  match st with
  | CStart =>
      Outcome (Yielded (Take SET_GOAL)) CWatching []
  | CWatching =>
      match get v "payload" with
      | Ok goal =>
          if serves c goal && is_str (status_of store (ctl_worker c)) OFFLINE
          then Outcome (Yielded (Put (workerBusy [VStr (ctl_worker c)]))) CMarked []
          else Outcome (Yielded (Take SET_GOAL)) CWatching []
      | Throw e => Outcome (Thrown e) CFinished []
      end
  | CMarked =>
      let process := forkWorker (ctl_program c) in
      Outcome (Yielded (Call WatchProcess [process])) CAttaching [ctl_program c]
  | CAttaching =>
      Outcome (Yielded (Fork NotifyForeman [v])) CRelaying []
  | CRelaying =>
      Outcome (Yielded (Take (ctl_signal c))) CAwaiting []
  | CAwaiting =>
      match worker_of v with
      | Ok worker =>
          if is_str worker (ctl_worker c)
          then Outcome (Yielded (Take SET_GOAL)) CWatching []
          else Outcome (Yielded (Take (ctl_signal c))) CAwaiting []
      | Throw e => Outcome (Thrown e) CFinished []
      end
  | CFinished =>
      Outcome Returned CFinished []
  end.

(** Modelled from the spec: the watcher is the long-running worker that
    serves the Watch goal; its program is called watcher and it signals
    readiness with a [READY] action. *)
Definition watcher : controller := {|
  ctl_worker := WORKER_WATCHER;
  ctl_goals := [GOAL_WATCH];
  ctl_program := "watcher";
  ctl_signal := READY;
|}.

#[local] Instance controller_generator (c : controller)
  : Generator registry controller_state := {
  start := CStart;
  next := controller_next c;
}.

(** [startWatcher(getState)]: each resumption is given the store that
    [getState()] returns at that moment. *)
Definition startWatcher : Generator registry controller_state :=
  controller_generator watcher.

End Controller.

(** The steps of a run that publish [WorkerBusy]. *)
Definition publishes_busy {St : Type} (o : outcome St) : bool :=
  match emitted o with
  | Yielded (Put action) =>
      match get action "type" with
      | Ok t => is_str t BUSY
      | Throw _ => false
      end
  | _ => false
  end.

End WatcherSaga.

(** ** Dispatching to the registry *)

Module Dispatch.
Import ReduxActions Workers.

(** [action.payload.error]: the error an action carries, [undefined] when
    its payload has none. *)
Definition error_of (action : value) : result value :=
  payload ← get action "payload";
  get payload "error".

(** The six action creators exported by state/workers.js, each with the
    status constant it is created for. *)
Definition creators : list (string * (list value → value)) :=
  [(BUSY, workerBusy);
   (DONE, workerDone);
   (ERROR, workerError);
   (OFFLINE, workerOffline);
   (READY, workerReady);
   (STOP, workerStop)].

(** The registry after a store has handed a sequence of dispatched actions
    to the reducer, one after the other; an exception thrown by the
    reducer ends the sequence. *)
Definition reduceAll (state : registry) (actions : list value) : result registry :=
  foldl (λ acc action, s ← acc; reducer (Some s) action) (Ok state) actions.

(** The actions the registry is meant to see: actions of other modules,
    whose type is none of the six status constants, and status actions
    addressed to one of the six workers. *)
Definition dispatchable (action : value) : Prop :=
  (∃ ty, get action "type" = Ok ty ∧ ty ∉ VStr <$> statuses) ∨
  (∃ t w, t ∈ statuses ∧ get action "type" = Ok (VStr t) ∧
          worker_of action = Ok (VStr w) ∧ w ∈ workers).

End Dispatch.

(** * Properties *)

(** ** JavaScript helpers *)

Lemma is_str_true (v : value) (s : string) : is_str v s = true ↔ v = VStr s.
Proof.
  destruct v; simpl; try (split; [discriminate | congruence]).
  rewrite bool_decide_eq_true. split; congruence.
Qed.

Lemma is_str_false (v : value) (s : string) : is_str v s = false ↔ v ≠ VStr s.
Proof.
  rewrite <- is_str_true. destruct (is_str v s); split; congruence.
Qed.

Lemma is_str_refl (s : string) : is_str (VStr s) s = true.
Proof. by apply is_str_true. Qed.

(** An object whose property can be read can have any property read. *)
Lemma get_defined (v x : value) (k k' : string) :
  get v k = Ok x → ∃ y, get v k' = Ok y.
Proof. destruct v; simpl; intros; try discriminate; eauto. Qed.

(** ** redux-actions: dispatch on the action type *)

Section HandleActions.
Import ReduxActions.
Context {S : Type}.
Implicit Types (hs : list (string * (S → value → result S))) (a : value).

Lemma chain_throw a (rs : list (S → value → result S)) e :
  foldl (chain a) (Throw e) rs = Throw e.
Proof. induction rs as [|r rs IH]; simpl; auto. Qed.

Lemma reduceReducers_other a hs t s :
  get a "type" = Ok t →
  (∀ h, h ∈ hs → t ≠ VStr h.1) →
  reduceReducers ((λ h, handleAction h.1 h.2) <$> hs) s a = Ok s.
Proof.
  intros Ht. unfold reduceReducers.
  induction hs as [|h hs IH]; simpl; intros Hne; [done|].
  unfold handleAction at 1. rewrite Ht. simpl.
  assert (is_str t h.1 = false) as ->
    by (apply is_str_false, Hne; left).
  apply IH. intros h' Hin. apply Hne. by right.
Qed.

Lemma reduceReducers_match a hs k r s :
  NoDup hs.*1 → (k, r) ∈ hs → get a "type" = Ok (VStr k) →
  reduceReducers ((λ h, handleAction h.1 h.2) <$> hs) s a = r s a.
Proof.
  intros Hnd Hin Ht. revert Hnd Hin.
  induction hs as [|h hs IH]; intros Hnd Hin.
  { by apply elem_of_nil in Hin. }
  apply NoDup_cons in Hnd as [Hfresh Hnd].
  unfold reduceReducers in *. simpl.
  unfold handleAction at 1. rewrite Ht. simpl.
  apply elem_of_cons in Hin as [<- | Hin].
  - simpl. rewrite bool_decide_eq_true_2 by done.
    destruct (r s a) as [s'|e]; [|apply chain_throw].
    apply (reduceReducers_other a hs (VStr k) s' Ht).
    intros h Hh Heq. inversion Heq as [Hk]. apply Hfresh.
    rewrite Hk. apply list_elem_of_fmap. by exists h.
  - rewrite bool_decide_eq_false_2; [by apply IH|].
    intros Heq. apply Hfresh. rewrite <- Heq.
    apply list_elem_of_fmap. by exists (k, r).
Qed.

(** An action whose type no handler is registered for leaves the state as
    it is, after the default has replaced an undefined state. *)
Lemma handleActions_other hs (d : S) (st : option S) a t :
  get a "type" = Ok t →
  (∀ h, h ∈ hs → t ≠ VStr h.1) →
  handleActions hs d st a = Ok (default d st).
Proof. apply reduceReducers_other. Qed.

(** An action whose type has a handler is reduced by that handler alone. *)
Lemma handleActions_match hs (d : S) (st : option S) a k r :
  NoDup hs.*1 → (k, r) ∈ hs → get a "type" = Ok (VStr k) →
  handleActions hs d st a = r (default d st) a.
Proof. apply reduceReducers_match. Qed.

End HandleActions.

(** ** The worker registry *)

Section Registry.
Import Immutable ReduxActions Workers.
Implicit Types (s : registry) (ws : worker_state) (a : value) (w t : string).

Lemma statuses_NoDup : NoDup statuses.
Proof. apply (bool_decide_unpack _). by vm_compute. Qed.

Lemma workers_NoDup : NoDup workers.
Proof. apply (bool_decide_unpack _). by vm_compute. Qed.

Lemma handlers_keys : handlers.*1 = statuses.
Proof. reflexivity. Qed.

Lemma handlers_updateStatus t : t ∈ statuses → (t, updateStatus t) ∈ handlers.
Proof.
  unfold statuses, handlers. rewrite !elem_of_cons.
  intros H. repeat destruct H as [-> | H]; try by apply elem_of_nil in H.
  all: repeat (first [by left | right]).
Qed.

(** A status action is reduced by [updateStatus] at its own status. *)
Lemma reducer_status (st : option registry) a t :
  t ∈ statuses → get a "type" = Ok (VStr t) →
  reducer st a = updateStatus t (default initialState st) a.
Proof.
  intros Ht Ha. unfold reducer.
  apply (handleActions_match _ _ _ _ t).
  - rewrite handlers_keys. apply statuses_NoDup.
  - by apply handlers_updateStatus.
  - done.
Qed.

(** On a registered worker [updateStatus] replaces the worker's entry by
    one with the new status and the payload's error, or null. *)
Lemma updateStatus_registered s a t w ws :
  worker_of a = Ok (VStr w) → s !! w = Some ws →
  ∃ e, (get a "payload" ≫= λ p, get p "error") = Ok e ∧
       updateStatus t s a = Ok (<[w := with_status t (or_else e VNull) ws]> s).
Proof.
  unfold worker_of, updateStatus. intros Hw Hs.
  destruct (get a "payload") as [p|] eqn:Hp; simpl in *; [|discriminate].
  destruct (get_defined _ _ _ "error" Hw) as [e He].
  exists e. split; [done|]. rewrite Hw. simpl.
  unfold update, mergeStatus. rewrite Hs. simpl. by rewrite He.
Qed.

(** A worker that is not registered makes [updateStatus] throw. *)
Lemma updateStatus_unregistered s a t w :
  worker_of a = Ok (VStr w) → s !! w = None →
  updateStatus t s a = Throw TypeError.
Proof.
  unfold worker_of, updateStatus. intros Hw Hs.
  destruct (get a "payload") as [p|]; simpl in *; [|discriminate].
  rewrite Hw. simpl. unfold update, mergeStatus. by rewrite Hs.
Qed.

Lemma with_status_other t e ws (f : string) :
  f ≠ "status" → f ≠ "error" → with_status t e ws !! f = ws !! f.
Proof.
  intros H1 H2. unfold with_status.
  rewrite lookup_insert_ne by done. by rewrite lookup_insert_ne.
Qed.

Lemma with_status_status t e ws : with_status t e ws !! "status" = Some (VStr t).
Proof. unfold with_status. by rewrite lookup_insert_eq. Qed.

Lemma with_status_error t e ws : with_status t e ws !! "error" = Some e.
Proof.
  unfold with_status. rewrite lookup_insert_ne by done.
  by rewrite lookup_insert_eq.
Qed.

Lemma initialState_dom : dom initialState = list_to_set workers.
Proof.
  unfold initialState. rewrite !dom_insert_L, dom_empty_L. simpl. set_solver.
Qed.

Lemma initialState_lookup w ws :
  initialState !! w = Some ws →
  ∃ name, w ∈ workers ∧ ws = offline_worker name.
Proof.
  unfold initialState, workers. intros H.
  repeat (apply lookup_insert_Some in H as [[<- <-] | [_ H]];
          [eexists; split; [|reflexivity]; set_solver |]).
  by rewrite lookup_empty in H.
Qed.

Lemma initialState_ok : registry_ok initialState.
Proof.
  split; [apply initialState_dom|].
  intros w ws [name [_ ->]]%initialState_lookup.
  exists OFFLINE. split; [unfold statuses; set_solver | done].
Qed.

End Registry.

Import Immutable ReduxActions Workers.

(** Membership of a concrete element in a concrete list. *)
Ltac listed := repeat (first [by apply list_elem_of_here | apply list_elem_of_further]).

(** C5: for every registry state and every status-change action addressed
    to a registered worker [w], the reducer returns a state in which the
    stored state of every other worker is unchanged and in which [w] keeps
    its name and every field other than status and error. *)
Theorem reducer_frame (s : registry) (a : value) (t w : string)
    (ws : gmap string value) :
  t ∈ statuses →
  get a "type" = Ok (VStr t) →
  worker_of a = Ok (VStr w) →
  s !! w = Some ws →
  ∃ s' ws',
    reducer (Some s) a = Ok s' ∧
    (∀ w', w' ≠ w → s' !! w' = s !! w') ∧
    s' !! w = Some ws' ∧
    ws' !! "name" = ws !! "name" ∧
    (∀ f : string, f ≠ "status" → f ≠ "error" → ws' !! f = ws !! f).
Proof.
  intros Ht Ha Hw Hs.
  destruct (updateStatus_registered s a t w ws Hw Hs) as (e & _ & Hupd).
  exists (<[w := with_status t (or_else e VNull) ws]> s),
         (with_status t (or_else e VNull) ws).
  rewrite (reducer_status _ _ t) by done. simpl.
  split; [done|]. split; [|split; [|split]].
  - intros w' Hne. by rewrite lookup_insert_ne.
  - by rewrite lookup_insert_eq.
  - by apply with_status_other.
  - intros f. apply with_status_other.
Qed.

Lemma reducer_frame_witness :
  ∃ s' ws',
    reducer (Some initialState) (workerBusy [VStr WORKER_WATCHER]) = Ok s' ∧
    (∀ w', w' ≠ WORKER_WATCHER → s' !! w' = initialState !! w') ∧
    s' !! WORKER_WATCHER = Some ws' ∧
    ws' !! "name" = offline_worker "Watcher" !! "name" ∧
    (∀ f : string, f ≠ "status" → f ≠ "error" →
       ws' !! f = offline_worker "Watcher" !! f).
Proof.
  apply (reducer_frame initialState (workerBusy [VStr WORKER_WATCHER])
           BUSY WORKER_WATCHER (offline_worker "Watcher")).
  - unfold statuses. listed.
  - reflexivity.
  - reflexivity.
  - vm_compute. reflexivity.
Defined.

(** The action built by [workerError] carries the worker and nothing
    else: the creator's payload function takes one argument. *)
Lemma workerError_payload (w e : value) :
  workerError [w; e] = VObj [("type", VStr ERROR); ("payload", VObj [("worker", w)])].
Proof. reflexivity. Qed.

(** Reducing the action of [workerError(w, e)] on a registered worker
    sets the status to ERROR and the error to null, whatever [e] is. *)
Lemma workerError_reduced (s : registry) (w : string) (e : value)
    (ws : gmap string value) :
  s !! w = Some ws →
  reducer (Some s) (workerError [VStr w; e])
  = Ok (<[w := with_status ERROR VNull ws]> s).
Proof.
  intros Hs.
  rewrite (reducer_status _ _ ERROR); [| unfold statuses; listed | done].
  destruct (updateStatus_registered s (workerError [VStr w; e]) ERROR w ws)
    as (e' & He' & Hupd); [done | done |].
  simpl in He'. inversion He'; subst e'. exact Hupd.
Qed.

(** The reducer itself does record a truthy error that it finds in the
    payload of an action. *)
Lemma reducer_records_payload_error (s : registry) (w t : string) (e : value)
    (ws : gmap string value) :
  t ∈ statuses → truthy e = true → s !! w = Some ws →
  reducer (Some s)
    (VObj [("type", VStr t); ("payload", VObj [("worker", VStr w); ("error", e)])])
  = Ok (<[w := with_status t e ws]> s).
Proof.
  intros Ht He Hs. rewrite (reducer_status _ _ t) by done.
  match goal with |- updateStatus _ _ ?a = _ =>
    destruct (updateStatus_registered s a t w ws) as (e' & He' & Hupd);
      [done | done |]
  end.
  simpl in He'. inversion He'; subst e'.
  unfold or_else in Hupd. rewrite He in Hupd. exact Hupd.
Qed.

(** C6: the registry after [workerError(WORKER_LINTER, e)] from the initial
    state has the linter at status ERROR with a null error, for every
    error payload [e]: the payload is not stored. *)
Theorem workerError_loses_error (e : value) :
  ∃ s' ws',
    reducer (Some initialState) (workerError [VStr WORKER_LINTER; e]) = Ok s' ∧
    s' !! WORKER_LINTER = Some ws' ∧
    ws' !! "status" = Some (VStr ERROR) ∧
    ws' !! "error" = Some VNull.
Proof.
  eexists _, _. split; [|split; [|split]].
  - by apply (workerError_reduced _ _ _ (offline_worker "Linter")).
  - by rewrite lookup_insert_eq.
  - apply with_status_status.
  - apply with_status_error.
Qed.

(** C7: the initial registry has exactly the six workers as keys, named
    Bundler, Dev Server, Linter, Test Runner, Transpiler and Watcher, and
    every one of them is at status OFFLINE with a null error. *)
Theorem initialState_all_offline :
  dom initialState = list_to_set workers ∧
  NoDup workers ∧ length workers = 6 ∧
  (∀ w, w ∈ workers →
     ∃ ws, initialState !! w = Some ws ∧
           ws !! "status" = Some (VStr OFFLINE) ∧ ws !! "error" = Some VNull) ∧
  (λ w, initialState !! w ≫= λ ws, ws !! "name") <$> workers
  = [Some (VStr "Bundler"); Some (VStr "Dev Server"); Some (VStr "Linter");
     Some (VStr "Test Runner"); Some (VStr "Transpiler"); Some (VStr "Watcher")].
Proof.
  split; [apply initialState_dom|].
  split; [apply workers_NoDup|]. split; [reflexivity|]. split.
  - intros w Hw.
    assert (is_Some (initialState !! w)) as [ws Hws].
    { apply elem_of_dom. rewrite initialState_dom. by apply elem_of_list_to_set. }
    exists ws. split; [done|].
    apply initialState_lookup in Hws as (name & _ & ->). done.
  - by vm_compute.
Qed.

(** C8: on a registry whose keys are the six workers, each with a current
    status, reducing a status action addressed to one of the six workers
    succeeds and gives a registry with the same keys, each with a current
    status. *)
Theorem reducer_preserves_registry (s : registry) (a : value) (t w : string) :
  registry_ok s →
  t ∈ statuses →
  get a "type" = Ok (VStr t) →
  worker_of a = Ok (VStr w) →
  w ∈ workers →
  ∃ s', reducer (Some s) a = Ok s' ∧ dom s' = dom s ∧ registry_ok s'.
Proof.
  intros [Hdom Hst] Ht Ha Hw Hin.
  assert (w ∈ dom s) as Hreg by (rewrite Hdom; by apply elem_of_list_to_set).
  pose proof Hreg as [ws Hws]%elem_of_dom.
  destruct (updateStatus_registered s a t w ws Hw Hws) as (e & _ & Hupd).
  exists (<[w := with_status t (or_else e VNull) ws]> s).
  rewrite (reducer_status _ _ t) by done. simpl.
  assert (dom (<[w := with_status t (or_else e VNull) ws]> s) = dom s) as Hd.
  { rewrite dom_insert_L. apply subseteq_union_1_L.
    by apply singleton_subseteq_l. }
  split; [done|]. split; [done|]. split; [by rewrite Hd|].
  intros w' ws' [[<- <-] | [_ Hother]]%lookup_insert_Some.
  - exists t. split; [done | apply with_status_status].
  - by apply (Hst w').
Qed.

Lemma reducer_preserves_registry_witness :
  ∃ s', reducer (Some initialState) (workerReady [VStr WORKER_WATCHER]) = Ok s' ∧
        dom s' = dom initialState ∧ registry_ok s'.
Proof.
  apply (reducer_preserves_registry initialState
           (workerReady [VStr WORKER_WATCHER]) READY WORKER_WATCHER).
  - apply initialState_ok.
  - unfold statuses. listed.
  - reflexivity.
  - reflexivity.
  - unfold workers. listed.
Defined.

(** C9: an action whose type is none of the six status constants leaves
    every state as it is, and turns an undefined state into the initial
    state. *)
Theorem reducer_other_type (a t : value) :
  get a "type" = Ok t →
  t ∉ VStr <$> statuses →
  (∀ s : registry, reducer (Some s) a = Ok s) ∧
  reducer None a = Ok initialState.
Proof.
  intros Ha Ht.
  assert (∀ st, reducer st a = Ok (default initialState st)) as H.
  { intros st. unfold reducer. apply (handleActions_other _ _ _ _ t); [done|].
    intros h Hh ->. apply Ht. apply list_elem_of_fmap. exists h.1.
    split; [done|]. rewrite <- handlers_keys. apply list_elem_of_fmap. by exists h. }
  split; [intros s|]; apply H.
Qed.

Lemma reducer_other_type_witness :
  (∀ s : registry, reducer (Some s) (Foreman.setGoal [VStr Foreman.GOAL_WATCH]) = Ok s) ∧
  reducer None (Foreman.setGoal [VStr Foreman.GOAL_WATCH]) = Ok initialState.
Proof.
  apply (reducer_other_type (Foreman.setGoal [VStr Foreman.GOAL_WATCH])
           (VStr Foreman.SET_GOAL)).
  - reflexivity.
  - unfold statuses. simpl. intros H.
    repeat (apply elem_of_cons in H as [H | H]; [discriminate H|]).
    by apply elem_of_nil in H.
Defined.

(** ** The transpiler sagas *)

Import Saga TranspilerSaga.

(** Resuming a generator with two batches of inputs in a row. *)
Lemma run_app {Env St : Type} {G : Generator Env St} (st : St)
    (xs ys : list (Env * value)) :
  run st (xs ++ ys) = run st xs ++ run (state_after st (run st xs)) ys.
Proof.
  revert st. induction xs as [|[env v] xs IH]; intros st; [done|].
  simpl. rewrite IH. do 2 f_equal. unfold state_after.
  destruct (run (suspended (next env st v)) xs) as [|o os]; [done|].
  simpl. destruct (last (o :: os)) as [x|] eqn:Hlast; [done|].
  by apply last_None in Hlast.
Qed.

(** Once finished, a generator stays finished. *)
Lemma transpile_finished (more : list value) :
  run (G := transpile) TFinished (pair tt <$> more)
  = (λ _, Outcome Returned TFinished []) <$> more.
Proof.
  induction more as [|v more IH]; [done|].
  rewrite !fmap_cons. cbn [run]. f_equal. exact IH.
Qed.

(** C4: resumed from its start, the transpile saga yields the glob call,
    the babel call on the file names it was resumed with, the put of the
    done action and the foreman notification carrying
    workerDone(WORKER_TRANSPILER), in that order; the next resumption
    reports the end of the generator, and so does every later one. *)
Theorem transpile_one_shot (filenames v0 v2 v3 v4 : value) (more : list value) :
  emitted <$> run (G := transpile) start
                (pair tt <$> [v0; filenames; v2; v3; v4] ++ more)
  = [Yielded (Call Glob [VStr "src/**/*.js?(x)"]);
     Yielded (Call BabelTranspile
                [VObj [("baseDir", VStr "src"); ("filenames", filenames);
                       ("outDir", VStr "build"); ("sourceMaps", VBool true)]]);
     Yielded (Put (TranspilerState.done []));
     Yielded (Call ForemanProxy [workerDone [VStr WORKER_TRANSPILER]]);
     Returned]
    ++ ((λ _, Returned) <$> more).
Proof.
  rewrite fmap_app, run_app, fmap_app. f_equal.
  change (state_after _ _) with TFinished.
  rewrite transpile_finished, <- list_fmap_compose. done.
Qed.

(** The one round that the test of [initTranspiler()] observes, for every
    path and whatever the saga does afterwards: take(TRANSPILE), then
    call(transpile, path) for the path of the action it is resumed with,
    then take(TRANSPILE) again. *)
Lemma initTranspiler_first_round (beyond : value → outcome init_state)
    (v0 path res : value) :
  emitted <$> run (G := initTranspiler beyond) IStart
    [(tt, v0); (tt, TranspilerState.transpileAction [path]); (tt, res)]
  = [Yielded (Take TranspilerState.TRANSPILE);
     Yielded (Call TranspileSaga [path]);
     Yielded (Take TranspilerState.TRANSPILE)].
Proof. reflexivity. Qed.

(** That round does not settle what comes next: a body that ends at the
    following resumption and a body that starts another round both give
    it. *)
Lemma initTranspiler_undetermined (v0 path res a : value) :
  ∃ ending looping : value → outcome init_state,
    emitted <$> run (G := initTranspiler ending) IStart
      [(tt, v0); (tt, TranspilerState.transpileAction [path]); (tt, res); (tt, a)]
    = [Yielded (Take TranspilerState.TRANSPILE);
       Yielded (Call TranspileSaga [path]);
       Yielded (Take TranspilerState.TRANSPILE);
       Returned] ∧
    emitted <$> run (G := initTranspiler looping) IStart
      [(tt, v0); (tt, TranspilerState.transpileAction [path]); (tt, res);
       (tt, TranspilerState.transpileAction [a])]
    = [Yielded (Take TranspilerState.TRANSPILE);
       Yielded (Call TranspileSaga [path]);
       Yielded (Take TranspilerState.TRANSPILE);
       Yielded (Call TranspileSaga [a])].
Proof.
  exists (λ _, Outcome Returned IFinished []),
         (λ v, match get v "payload" with
               | Ok p => Outcome (Yielded (Call TranspileSaga [p])) ITranspiling []
               | Throw e => Outcome (Thrown e) IFinished []
               end).
  split; reflexivity.
Qed.

(** ** The watcher controller *)

Import WatcherSaga Foreman.

Lemma serves_spec (c : controller) (goal : value) :
  serves c goal = true ↔ goal ∈ VStr <$> ctl_goals c.
Proof.
  unfold serves. rewrite existsb_exists, list_elem_of_fmap.
  split.
  - intros (g & Hin & Hg). exists g. split; [by apply is_str_true|].
    by apply list_elem_of_In.
  - intros (g & -> & Hin). exists g. split; [by apply list_elem_of_In|].
    apply is_str_refl.
Qed.

(** A goal that is not served, or a worker that is not offline, sends the
    controller straight back to waiting for the next goal. *)
Lemma controller_declines (forkWorker : string → value) (c : controller)
    (store : registry) (goal : value) :
  goal ∉ VStr <$> ctl_goals c ∨ status_of store (ctl_worker c) ≠ VStr OFFLINE →
  controller_next forkWorker c store CWatching (setGoal [goal])
  = Outcome (Yielded (Take SET_GOAL)) CWatching [].
Proof.
  intros H. simpl.
  assert (serves c goal && is_str (status_of store (ctl_worker c)) OFFLINE = false)
    as ->; [|done].
  apply andb_false_iff. destruct H as [H | H].
  - left. apply not_true_is_false. by rewrite serves_spec.
  - right. by apply is_str_false.
Qed.

(** A served goal for an offline worker makes the controller publish that
    the worker is busy. *)
Lemma controller_accepts (forkWorker : string → value) (c : controller)
    (store : registry) (goal : value) :
  goal ∈ VStr <$> ctl_goals c → status_of store (ctl_worker c) = VStr OFFLINE →
  controller_next forkWorker c store CWatching (setGoal [goal])
  = Outcome (Yielded (Put (workerBusy [VStr (ctl_worker c)]))) CMarked [].
Proof.
  intros Hg Hs. simpl.
  apply serves_spec in Hg as ->. rewrite Hs. by rewrite is_str_refl.
Qed.

(** A readiness event for another worker leaves the controller blocked. *)
Lemma controller_waits (forkWorker : string → value) (c : controller)
    (store : registry) (a w : value) :
  worker_of a = Ok w → w ≠ VStr (ctl_worker c) →
  controller_next forkWorker c store CAwaiting a
  = Outcome (Yielded (Take (ctl_signal c))) CAwaiting [].
Proof.
  intros Hw Hne. simpl. rewrite Hw.
  by apply is_str_false in Hne as ->.
Qed.

(** The readiness event for the controller's worker sends it back to
    waiting for the next goal. *)
Lemma controller_resumes (forkWorker : string → value) (c : controller)
    (store : registry) (a : value) :
  worker_of a = Ok (VStr (ctl_worker c)) →
  controller_next forkWorker c store CAwaiting a
  = Outcome (Yielded (Take SET_GOAL)) CWatching [].
Proof. intros Hw. simpl. rewrite Hw. by rewrite is_str_refl. Qed.

(** C1: with the watcher registered as offline, the watcher controller
    resumed with SetGoal(Watch) publishes WorkerBusy(Watcher), then forks
    the watcher program and calls watchProcess on the process, then forks
    notifyForeman on the relay that call returned, then blocks on READY;
    resumed with WorkerReady(Watcher) it blocks on the next SET_GOAL. *)
Theorem startWatcher_launches (forkWorker : string → value)
    (store s0 s2 s3 s4 s5 : registry) (v0 v2 relay v4 : value) :
  status_of store WORKER_WATCHER = VStr OFFLINE →
  run (G := startWatcher forkWorker) CStart
    [(s0, v0); (store, setGoal [VStr GOAL_WATCH]); (s2, v2); (s3, relay);
     (s4, v4); (s5, workerReady [VStr WORKER_WATCHER])]
  = [Outcome (Yielded (Take SET_GOAL)) CWatching [];
     Outcome (Yielded (Put (workerBusy [VStr WORKER_WATCHER]))) CMarked [];
     Outcome (Yielded (Call WatchProcess [forkWorker "watcher"])) CAttaching
             ["watcher"];
     Outcome (Yielded (Fork NotifyForeman [relay])) CRelaying [];
     Outcome (Yielded (Take READY)) CAwaiting [];
     Outcome (Yielded (Take SET_GOAL)) CWatching []].
Proof.
  intros Hoff. cbn [run]. f_equal.
  change (suspended (next s0 CStart v0)) with CWatching.
  change (next store CWatching (setGoal [VStr GOAL_WATCH]))
    with (controller_next forkWorker watcher store CWatching
            (setGoal [VStr GOAL_WATCH])).
  rewrite (controller_accepts forkWorker watcher store (VStr GOAL_WATCH));
    [| unfold watcher; simpl; listed | exact Hoff].
  reflexivity.
Qed.

Lemma startWatcher_launches_witness :
  status_of initialState WORKER_WATCHER = VStr OFFLINE ∧
  run (G := startWatcher (λ program, VObj [("program", VStr program)])) CStart
    [(∅, VUndefined); (initialState, setGoal [VStr GOAL_WATCH]);
     (∅, VUndefined); (∅, VObj []); (∅, VUndefined);
     (∅, workerReady [VStr WORKER_WATCHER])]
  = [Outcome (Yielded (Take SET_GOAL)) CWatching [];
     Outcome (Yielded (Put (workerBusy [VStr WORKER_WATCHER]))) CMarked [];
     Outcome (Yielded (Call WatchProcess [VObj [("program", VStr "watcher")]]))
             CAttaching ["watcher"];
     Outcome (Yielded (Fork NotifyForeman [VObj []])) CRelaying [];
     Outcome (Yielded (Take READY)) CAwaiting [];
     Outcome (Yielded (Take SET_GOAL)) CWatching []].
Proof.
  split; [by vm_compute|].
  apply (startWatcher_launches (λ program, VObj [("program", VStr program)])
           initialState ∅ ∅ ∅ ∅ ∅ VUndefined VUndefined (VObj []) VUndefined).
  by vm_compute.
Defined.

(** C2: a controller that is waiting for a goal and receives SetGoal
    actions, each for a goal it does not serve or at a moment its worker is
    not offline in the registry, answers every one of them by waiting for
    the next SET_GOAL: no WorkerBusy is published and no process is
    launched, however often the goal is broadcast. *)
Theorem controller_ignores (forkWorker : string → value) (c : controller)
    (inputs : list (registry * value)) :
  Forall (λ i, i.2 ∉ VStr <$> ctl_goals c ∨
               status_of i.1 (ctl_worker c) ≠ VStr OFFLINE) inputs →
  run (G := controller_generator forkWorker c) CWatching
    ((λ i, (i.1, setGoal [i.2])) <$> inputs)
  = (λ _, Outcome (Yielded (Take SET_GOAL)) CWatching []) <$> inputs ∧
  Forall (λ o, publishes_busy o = false ∧ launched o = [])
    (run (G := controller_generator forkWorker c) CWatching
       ((λ i, (i.1, setGoal [i.2])) <$> inputs)).
Proof.
  intros H.
  assert (run (G := controller_generator forkWorker c) CWatching
            ((λ i, (i.1, setGoal [i.2])) <$> inputs)
          = (λ _, Outcome (Yielded (Take SET_GOAL)) CWatching []) <$> inputs)
    as ->.
  { induction H as [|[store goal] inputs Hi _ IH]; [done|].
    rewrite !fmap_cons. cbn [run fst snd].
    change (next store CWatching (setGoal [goal]))
      with (controller_next forkWorker c store CWatching (setGoal [goal])).
    rewrite (controller_declines forkWorker c store goal Hi).
    f_equal. exact IH. }
  split; [done|].
  apply Forall_fmap, Forall_forall. by intros i _.
Qed.

Lemma controller_ignores_witness :
  run (G := controller_generator (λ _, VObj []) watcher) CWatching
    [({[WORKER_WATCHER := {["status" := VStr READY]}]}, setGoal [VStr GOAL_LINT]);
     ({[WORKER_WATCHER := {["status" := VStr BUSY]}]}, setGoal [VStr GOAL_WATCH]);
     ({[WORKER_WATCHER := {["status" := VStr BUSY]}]}, setGoal [VStr GOAL_WATCH])]
  = [Outcome (Yielded (Take SET_GOAL)) CWatching [];
     Outcome (Yielded (Take SET_GOAL)) CWatching [];
     Outcome (Yielded (Take SET_GOAL)) CWatching []] ∧
  Forall (λ o, publishes_busy o = false ∧ launched o = [])
    (run (G := controller_generator (λ _, VObj []) watcher) CWatching
       [({[WORKER_WATCHER := {["status" := VStr READY]}]}, setGoal [VStr GOAL_LINT]);
        ({[WORKER_WATCHER := {["status" := VStr BUSY]}]}, setGoal [VStr GOAL_WATCH]);
        ({[WORKER_WATCHER := {["status" := VStr BUSY]}]}, setGoal [VStr GOAL_WATCH])]).
Proof.
  refine (controller_ignores (λ _, VObj []) watcher
           [({[WORKER_WATCHER := {["status" := VStr READY]}]}, VStr GOAL_LINT);
            ({[WORKER_WATCHER := {["status" := VStr BUSY]}]}, VStr GOAL_WATCH);
            ({[WORKER_WATCHER := {["status" := VStr BUSY]}]}, VStr GOAL_WATCH)]
           _).
  repeat (constructor; [right; by vm_compute |]). constructor.
Defined.

(** C3: a controller that is blocked awaiting readiness and receives
    WorkerReady or WorkerDone actions addressed to other workers answers
    every one of them by the same wait on its readiness signal (READY for
    the watcher), and stays in the awaiting state. *)
Theorem controller_stays_blocked (forkWorker : string → value) (c : controller)
    (inputs : list (registry * value)) :
  Forall (λ i, ∃ w, worker_of i.2 = Ok w ∧ w ≠ VStr (ctl_worker c)) inputs →
  run (G := controller_generator forkWorker c) CAwaiting inputs
  = (λ _, Outcome (Yielded (Take (ctl_signal c))) CAwaiting []) <$> inputs.
Proof.
  induction 1 as [|[store a] inputs (w & Hw & Hne) _ IH]; [done|].
  rewrite fmap_cons. cbn [run].
  change (next store CAwaiting a)
    with (controller_next forkWorker c store CAwaiting a).
  rewrite (controller_waits forkWorker c store a w Hw Hne).
  f_equal. exact IH.
Qed.

Lemma controller_stays_blocked_witness :
  run (G := controller_generator (λ _, VObj []) watcher) CAwaiting
    [(initialState, workerReady [VStr WORKER_LINTER]);
     (initialState, workerDone [VStr WORKER_TRANSPILER])]
  = [Outcome (Yielded (Take READY)) CAwaiting [];
     Outcome (Yielded (Take READY)) CAwaiting []].
Proof.
  apply (controller_stays_blocked (λ _, VObj []) watcher
           [(initialState, workerReady [VStr WORKER_LINTER]);
            (initialState, workerDone [VStr WORKER_TRANSPILER])]).
  repeat constructor.
  - exists (VStr WORKER_LINTER). split; [reflexivity | discriminate].
  - exists (VStr WORKER_TRANSPILER). split; [reflexivity | discriminate].
Defined.

(** ** The test cases of the sagas, replayed on the model *)

Example transpile_test :
  emitted <$> run (G := transpile) start
    (pair tt <$> [VUndefined; VArr [VStr "src/spike.js"; VStr "src/lee.js"];
                  VUndefined; VUndefined; VUndefined])
  = [Yielded (Call Glob [VStr "src/**/*.js?(x)"]);
     Yielded (Call BabelTranspile
                [VObj [("baseDir", VStr "src");
                       ("filenames", VArr [VStr "src/spike.js"; VStr "src/lee.js"]);
                       ("outDir", VStr "build"); ("sourceMaps", VBool true)]]);
     Yielded (Put (VObj [("type", VStr TranspilerState.DONE);
                         ("payload", VUndefined)]));
     Yielded (Call ForemanProxy
                [VObj [("type", VStr DONE);
                       ("payload", VObj [("worker", VStr WORKER_TRANSPILER)])]]);
     Returned].
Proof. reflexivity. Qed.

Example initTranspiler_test (beyond : value → outcome init_state) :
  emitted <$> run (G := initTranspiler beyond) IStart
    [(tt, VUndefined);
     (tt, TranspilerState.transpileAction [VStr "file.js"]);
     (tt, VUndefined)]
  = [Yielded (Take TranspilerState.TRANSPILE);
     Yielded (Call TranspileSaga [VStr "file.js"]);
     Yielded (Take TranspilerState.TRANSPILE)].
Proof. reflexivity. Qed.

Example startWatcher_test_not_watch :
  emitted <$> run (G := startWatcher (λ _, VObj [])) CStart
    [(∅, VUndefined);
     ({[WORKER_WATCHER := {["status" := VStr READY]}]}, setGoal [VStr GOAL_LINT])]
  = [Yielded (Take SET_GOAL); Yielded (Take SET_GOAL)].
Proof. by vm_compute. Qed.

Example startWatcher_test_other_worker_ready :
  emitted <$> run (G := startWatcher (λ _, VObj [])) CStart
    [(∅, VUndefined);
     ({[WORKER_WATCHER := {["status" := VStr OFFLINE]}]}, setGoal [VStr GOAL_WATCH]);
     (∅, VUndefined); (∅, VObj []); (∅, VUndefined);
     (∅, workerReady [VStr WORKER_LINTER])]
  = [Yielded (Take SET_GOAL);
     Yielded (Put (workerBusy [VStr WORKER_WATCHER]));
     Yielded (Call WatchProcess [VObj []]);
     Yielded (Fork NotifyForeman [VObj []]);
     Yielded (Take READY);
     Yielded (Take READY)].
Proof. by vm_compute. Qed.

(** An unregistered worker is not added by the reducer: the update throws. *)
Example reducer_unregistered :
  reducer (Some initialState) (workerBusy [VStr "ship-yard/workers/WORKER_NOBODY"])
  = Throw TypeError.
Proof. by vm_compute. Qed.

(** ** Further properties of the registry reducer *)

Import Dispatch.

Lemma with_status_again (t1 t2 : string) (e1 e2 : value) (ws : gmap string value) :
  with_status t2 e2 (with_status t1 e1 ws) = with_status t2 e2 ws.
Proof.
  apply map_eq. intros f.
  destruct (decide (f = "status")) as [-> | Hs];
    [by rewrite !with_status_status|].
  destruct (decide (f = "error")) as [-> | He];
    [by rewrite !with_status_error|].
  by rewrite !with_status_other.
Qed.

Lemma with_status_current (t : string) (e : value) (ws : gmap string value) :
  ws !! "status" = Some (VStr t) → ws !! "error" = Some e →
  with_status t e ws = ws.
Proof.
  intros Hs He. unfold with_status.
  rewrite (insert_id ws "error") by done. by apply insert_id.
Qed.

(** An action that is addressed to a worker carries an error, possibly
    undefined. *)
Lemma error_of_addressed (a w : value) :
  worker_of a = Ok w → ∃ e, error_of a = Ok e.
Proof.
  unfold worker_of, error_of.
  destruct (get a "payload") as [p|]; simpl; [|discriminate].
  apply get_defined.
Qed.

(** What the reducer does with a status action addressed to [w]. *)
Lemma reducer_addressed (s : registry) (a e : value) (t w : string) :
  t ∈ statuses → get a "type" = Ok (VStr t) →
  worker_of a = Ok (VStr w) → error_of a = Ok e →
  reducer (Some s) a
  = match s !! w with
    | Some ws => Ok (<[w := with_status t (or_else e VNull) ws]> s)
    | None => Throw TypeError
    end.
Proof.
  intros Ht Ha Hw He. rewrite (reducer_status _ _ t) by done. simpl.
  destruct (s !! w) as [ws|] eqn:Hs.
  - destruct (updateStatus_registered s a t w ws Hw Hs) as (e' & He' & ->).
    unfold error_of in He. rewrite He in He'. by inversion He'.
  - by apply (updateStatus_unregistered s a t w).
Qed.

(** A value whose type cannot be read makes the reducer throw. *)
Lemma reducer_untyped (st : option registry) (a : value) (x : exn) :
  get a "type" = Throw x → reducer st a = Throw x.
Proof.
  intros Ha. unfold reducer, handleActions, reduceReducers, handlers.
  simpl. unfold handleAction at 1. rewrite Ha. reflexivity.
Qed.

(** An action of a type without a handler is passed over. *)
Lemma reducer_unhandled (st : option registry) (a ty : value) :
  get a "type" = Ok ty → ty ∉ VStr <$> statuses →
  reducer st a = Ok (default initialState st).
Proof.
  intros Ha Hout. unfold reducer.
  apply (handleActions_other _ _ _ _ ty); [done|].
  intros h Hh ->. apply Hout, list_elem_of_fmap. exists h.1.
  split; [done|]. rewrite <- handlers_keys.
  apply list_elem_of_fmap. by exists h.
Qed.

(** Every successful reduction is either the identity, for an action of
    another type, or the update of one registered worker. *)
Lemma reducer_Ok_inv (s s' : registry) (a : value) :
  reducer (Some s) a = Ok s' →
  (s' = s ∧ ∀ s0, reducer (Some s0) a = Ok s0) ∨
  ∃ t w ws e,
    t ∈ statuses ∧ get a "type" = Ok (VStr t) ∧
    worker_of a = Ok (VStr w) ∧ error_of a = Ok e ∧
    s !! w = Some ws ∧ s' = <[w := with_status t (or_else e VNull) ws]> s.
Proof.
  intros Hred.
  destruct (get a "type") as [ty|x] eqn:Ha;
    [| by rewrite (reducer_untyped _ _ x) in Hred].
  assert (ty ∉ VStr <$> statuses ∨ ∃ t, ty = VStr t ∧ t ∈ statuses) as [Hout | (t & -> & Ht)].
  { destruct ty as [| | | |t| |];
      try (left; intros (k & Hk & _)%list_elem_of_fmap; discriminate Hk).
    destruct (decide (t ∈ statuses)) as [Hin | Hout]; [right; by exists t|].
    left. intros (k & Hk & Hin)%list_elem_of_fmap. by inversion Hk; subst. }
  - assert (∀ s0, reducer (Some s0) a = Ok s0) as Hid.
    { intros s0. by rewrite (reducer_unhandled _ a ty). }
    left. split; [|done]. rewrite Hid in Hred. by inversion Hred.
  - right. rewrite (reducer_status _ _ t) in Hred by done. simpl in Hred.
    destruct (worker_of a) as [wv|x] eqn:Hw.
    + destruct (error_of_addressed a wv Hw) as [e He].
      assert (∃ w, wv = VStr w) as [w ->].
      { unfold updateStatus, worker_of in *.
        destruct (get a "payload") as [p|]; simpl in *; [|discriminate].
        rewrite Hw in Hred. simpl in Hred.
        destruct wv; try discriminate. by eexists. }
      pose proof (reducer_addressed s a e t w Ht Ha Hw He) as Hadd.
      rewrite (reducer_status _ _ t) in Hadd by done. simpl in Hadd.
      rewrite Hadd in Hred.
      destruct (s !! w) as [ws|] eqn:Hs; [|discriminate].
      exists t, w, ws, e. by inversion Hred.
    + unfold updateStatus, worker_of in *.
      destruct (get a "payload") as [p|]; simpl in *; [|discriminate].
      by rewrite Hw in Hred.
Qed.

(** A successful reduction keeps the key set, the fields of every worker
    other than status and error, and the presence of a status. *)
Lemma reducer_Ok_keeps (s s' : registry) (a : value) :
  reducer (Some s) a = Ok s' →
  dom s' = dom s ∧
  ∀ w ws, s !! w = Some ws →
    ∃ ws', s' !! w = Some ws' ∧
      (∀ f : string, f ≠ "status" → f ≠ "error" → ws' !! f = ws !! f) ∧
      ((∃ t, t ∈ statuses ∧ ws !! "status" = Some (VStr t)) →
       ∃ t, t ∈ statuses ∧ ws' !! "status" = Some (VStr t)).
Proof.
  intros [[-> _] | (t & w & ws & e & Ht & _ & _ & _ & Hs & ->)]%reducer_Ok_inv.
  - split; [done|]. intros w ws Hw. exists ws. by split.
  - split.
    + rewrite dom_insert_L. apply subseteq_union_1_L.
      apply singleton_subseteq_l, elem_of_dom. by exists ws.
    + intros w' ws' Hw'. destruct (decide (w' = w)) as [-> | Hne].
      * rewrite Hs in Hw'. inversion Hw'; subst ws'.
        eexists. rewrite lookup_insert_eq. split; [done|]. split.
        -- intros f. apply with_status_other.
        -- intros _. exists t. split; [done | apply with_status_status].
      * exists ws'. rewrite lookup_insert_ne by done. by split.
Qed.

(** The action of a creator, reduced on a registered worker. *)
Lemma status_action_reduced (s : registry) (t w : string) (rest : list value)
    (ws : gmap string value) :
  t ∈ statuses → s !! w = Some ws →
  reducer (Some s) (createAction t workerPayload (VStr w :: rest))
  = Ok (<[w := with_status t VNull ws]> s).
Proof.
  intros Ht Hs.
  rewrite (reducer_addressed s _ VUndefined t w) by done. by rewrite Hs.
Qed.

(** Lookups of a worker in the initial state. *)
Ltac initial_lookup :=
  unfold initialState;
  repeat (rewrite lookup_insert_ne by discriminate);
  apply lookup_insert_eq.

Lemma initialState_bundler :
  initialState !! WORKER_BUNDLER = Some (offline_worker "Bundler").
Proof. initial_lookup. Qed.

Lemma initialState_linter :
  initialState !! WORKER_LINTER = Some (offline_worker "Linter").
Proof. initial_lookup. Qed.

Lemma initialState_watcher :
  initialState !! WORKER_WATCHER = Some (offline_worker "Watcher").
Proof. initial_lookup. Qed.

Lemma initialState_packager :
  initialState !! "ship-yard/workers/WORKER_PACKAGER" = None.
Proof.
  unfold initialState.
  repeat (rewrite lookup_insert_ne by discriminate). apply lookup_empty.
Qed.

Example workerBusy_watcher :
  reducer (Some initialState) (workerBusy [VStr WORKER_WATCHER])
  = Ok (<[WORKER_WATCHER := with_status BUSY VNull (offline_worker "Watcher")]>
          initialState).
Proof.
  apply (status_action_reduced initialState BUSY WORKER_WATCHER []);
    [unfold statuses; listed | apply initialState_watcher].
Qed.

Example workerError_linter :
  reducer (Some initialState) (workerError [VStr WORKER_LINTER])
  = Ok (<[WORKER_LINTER := with_status ERROR VNull (offline_worker "Linter")]>
          initialState).
Proof.
  apply (status_action_reduced initialState ERROR WORKER_LINTER []);
    [unfold statuses; listed | apply initialState_linter].
Qed.

(** X1: a status action addressed to a registered worker sets that
    worker's status to the action's status and its error to the payload's
    error when that is truthy, and to null otherwise. *)
Theorem reducer_sets_status (s : registry) (a e : value) (t w : string)
    (ws : gmap string value) :
  t ∈ statuses →
  get a "type" = Ok (VStr t) →
  worker_of a = Ok (VStr w) →
  error_of a = Ok e →
  s !! w = Some ws →
  ∃ s' ws',
    reducer (Some s) a = Ok s' ∧
    s' !! w = Some ws' ∧
    ws' !! "status" = Some (VStr t) ∧
    ws' !! "error" = Some (if truthy e then e else VNull).
Proof.
  intros Ht Ha Hw He Hs.
  rewrite (reducer_addressed s a e t w) by done. rewrite Hs.
  eexists _, _. split; [done|]. rewrite lookup_insert_eq. split; [done|].
  split; [apply with_status_status | apply with_status_error].
Qed.

Lemma reducer_sets_status_witness :
  ∃ s' ws',
    reducer (Some initialState)
      (VObj [("type", VStr ERROR);
             ("payload", VObj [("worker", VStr WORKER_LINTER);
                               ("error", VStr "boom")])]) = Ok s' ∧
    s' !! WORKER_LINTER = Some ws' ∧
    ws' !! "status" = Some (VStr ERROR) ∧
    ws' !! "error" = Some (VStr "boom").
Proof.
  apply (reducer_sets_status initialState
           (VObj [("type", VStr ERROR);
                  ("payload", VObj [("worker", VStr WORKER_LINTER);
                                    ("error", VStr "boom")])])
           (VStr "boom") ERROR WORKER_LINTER (offline_worker "Linter")).
  - unfold statuses. listed.
  - reflexivity.
  - reflexivity.
  - reflexivity.
  - apply initialState_linter.
Defined.

(** X2: a status action addressed to a worker that is not in the registry
    makes the reducer throw a TypeError; no entry is created for it. *)
Theorem reducer_unregistered_throws (s : registry) (a : value) (t w : string) :
  t ∈ statuses →
  get a "type" = Ok (VStr t) →
  worker_of a = Ok (VStr w) →
  s !! w = None →
  reducer (Some s) a = Throw TypeError.
Proof.
  intros Ht Ha Hw Hs.
  destruct (error_of_addressed a _ Hw) as [e He].
  rewrite (reducer_addressed s a e t w) by done. by rewrite Hs.
Qed.

Lemma reducer_unregistered_throws_witness :
  reducer (Some initialState) (workerStop [VStr "ship-yard/workers/WORKER_PACKAGER"])
  = Throw TypeError.
Proof.
  apply (reducer_unregistered_throws initialState
           (workerStop [VStr "ship-yard/workers/WORKER_PACKAGER"])
           STOP "ship-yard/workers/WORKER_PACKAGER").
  - unfold statuses. listed.
  - reflexivity.
  - reflexivity.
  - apply initialState_packager.
Defined.

(** X3: a status action that names no worker, because it has no payload
    or because its payload's worker is not a string, makes the reducer
    throw a TypeError whatever the state is. *)
Theorem reducer_unaddressed_throws (st : option registry) (a : value) (t : string) :
  t ∈ statuses →
  get a "type" = Ok (VStr t) →
  (∀ w, worker_of a ≠ Ok (VStr w)) →
  reducer st a = Throw TypeError.
Proof.
  intros Ht Ha Hw. rewrite (reducer_status _ _ t) by done.
  unfold updateStatus, worker_of in *.
  destruct (get a "payload") as [p|[]]; simpl in *; [|done].
  destruct (get p "worker") as [wv|[]]; simpl; [|done].
  destruct wv; try done. by destruct (Hw s).
Qed.

Lemma reducer_unaddressed_throws_witness :
  reducer None (workerBusy []) = Throw TypeError ∧
  reducer (Some initialState) (VObj [("type", VStr DONE)]) = Throw TypeError.
Proof.
  split.
  - apply (reducer_unaddressed_throws None (workerBusy []) BUSY).
    + unfold statuses. listed.
    + reflexivity.
    + intros w. discriminate.
  - apply (reducer_unaddressed_throws (Some initialState)
             (VObj [("type", VStr DONE)]) DONE).
    + unfold statuses. listed.
    + reflexivity.
    + intros w. discriminate.
Defined.

(** X4: each of the six action creators builds an action that moves the
    worker given as first argument to the creator's status and clears its
    error to null; any further argument is dropped. *)
Theorem creators_reduce (s : registry) (t w : string)
    (mk : list value → value) (rest : list value) (ws : gmap string value) :
  (t, mk) ∈ creators →
  s !! w = Some ws →
  reducer (Some s) (mk (VStr w :: rest)) = Ok (<[w := with_status t VNull ws]> s).
Proof.
  intros Hmk Hs.
  assert (t ∈ statuses ∧
          mk (VStr w :: rest)
          = VObj [("type", VStr t); ("payload", VObj [("worker", VStr w)])])
    as [Ht ->].
  { unfold creators in Hmk.
    repeat (apply elem_of_cons in Hmk as [Hmk | Hmk];
            [injection Hmk as -> ->; split;
               [unfold statuses; listed | reflexivity] |]).
    by apply elem_of_nil in Hmk. }
  rewrite (reducer_addressed s _ VUndefined t w) by done. by rewrite Hs.
Qed.

Lemma creators_reduce_witness :
  reducer (Some initialState) (workerReady [VStr WORKER_WATCHER; VStr "extra"])
  = Ok (<[WORKER_WATCHER := with_status READY VNull (offline_worker "Watcher")]>
          initialState).
Proof.
  apply (creators_reduce initialState READY WORKER_WATCHER workerReady
           [VStr "extra"] (offline_worker "Watcher")).
  - unfold creators. listed.
  - apply initialState_watcher.
Defined.

(** X5: reducing the same action a second time changes nothing: whatever
    the action, if the reducer returns a state for it, it returns that
    very state when given the action again. *)
Theorem reducer_idempotent (s s' : registry) (a : value) :
  reducer (Some s) a = Ok s' →
  reducer (Some s') a = Ok s'.
Proof.
  intros [[-> Hid] | (t & w & ws & e & Ht & Ha & Hw & He & Hs & ->)]%reducer_Ok_inv.
  - apply Hid.
  - rewrite (reducer_addressed _ a e t w) by done.
    rewrite lookup_insert_eq, with_status_again. by rewrite insert_insert_eq.
Qed.

Lemma reducer_idempotent_witness :
  reducer (Some (<[WORKER_WATCHER := with_status BUSY VNull (offline_worker "Watcher")]>
                   initialState))
          (workerBusy [VStr WORKER_WATCHER])
  = Ok (<[WORKER_WATCHER := with_status BUSY VNull (offline_worker "Watcher")]>
          initialState).
Proof.
  apply (reducer_idempotent initialState _ (workerBusy [VStr WORKER_WATCHER])).
  apply workerBusy_watcher.
Defined.

(** X6: status actions addressed to two different workers commute: reduced
    in either order they give the same registry, or throw alike when one
    of the workers is not registered. *)
Theorem reducer_commutes (s : registry) (a1 a2 : value) (t1 t2 w1 w2 : string) :
  t1 ∈ statuses → get a1 "type" = Ok (VStr t1) → worker_of a1 = Ok (VStr w1) →
  t2 ∈ statuses → get a2 "type" = Ok (VStr t2) → worker_of a2 = Ok (VStr w2) →
  w1 ≠ w2 →
  (reducer (Some s) a1 ≫= λ s1, reducer (Some s1) a2)
  = (reducer (Some s) a2 ≫= λ s2, reducer (Some s2) a1).
Proof.
  intros Ht1 Ha1 Hw1 Ht2 Ha2 Hw2 Hne.
  destruct (error_of_addressed a1 _ Hw1) as [e1 He1].
  destruct (error_of_addressed a2 _ Hw2) as [e2 He2].
  rewrite (reducer_addressed s a1 e1 t1 w1), (reducer_addressed s a2 e2 t2 w2)
    by done.
  destruct (s !! w1) as [ws1|] eqn:Hs1, (s !! w2) as [ws2|] eqn:Hs2; simpl.
  - rewrite (reducer_addressed _ a2 e2 t2 w2), (reducer_addressed _ a1 e1 t1 w1)
      by done.
    rewrite !lookup_insert_ne by done. rewrite Hs1, Hs2.
    by rewrite insert_insert_ne.
  - rewrite (reducer_addressed _ a2 e2 t2 w2) by done.
    rewrite lookup_insert_ne by done. by rewrite Hs2.
  - rewrite (reducer_addressed _ a1 e1 t1 w1) by done.
    rewrite lookup_insert_ne by done. by rewrite Hs1.
  - done.
Qed.

Lemma reducer_commutes_witness :
  (reducer (Some initialState) (workerBusy [VStr WORKER_WATCHER])
     ≫= λ s1, reducer (Some s1) (workerDone [VStr WORKER_TRANSPILER]))
  = (reducer (Some initialState) (workerDone [VStr WORKER_TRANSPILER])
     ≫= λ s2, reducer (Some s2) (workerBusy [VStr WORKER_WATCHER])).
Proof.
  apply (reducer_commutes initialState
           (workerBusy [VStr WORKER_WATCHER]) (workerDone [VStr WORKER_TRANSPILER])
           BUSY DONE WORKER_WATCHER WORKER_TRANSPILER).
  - unfold statuses. listed.
  - reflexivity.
  - reflexivity.
  - unfold statuses. listed.
  - reflexivity.
  - reflexivity.
  - discriminate.
Defined.

(** X7: of two status actions addressed to the same worker the later one
    wins: reducing both in a row gives what reducing the second alone
    gives, status and error alike. *)
Theorem reducer_last_wins (s : registry) (a1 a2 : value) (t1 t2 w : string) :
  t1 ∈ statuses → get a1 "type" = Ok (VStr t1) → worker_of a1 = Ok (VStr w) →
  t2 ∈ statuses → get a2 "type" = Ok (VStr t2) → worker_of a2 = Ok (VStr w) →
  (reducer (Some s) a1 ≫= λ s1, reducer (Some s1) a2) = reducer (Some s) a2.
Proof.
  intros Ht1 Ha1 Hw1 Ht2 Ha2 Hw2.
  destruct (error_of_addressed a1 _ Hw1) as [e1 He1].
  destruct (error_of_addressed a2 _ Hw2) as [e2 He2].
  rewrite (reducer_addressed s a1 e1 t1 w), (reducer_addressed s a2 e2 t2 w)
    by done.
  destruct (s !! w) as [ws|] eqn:Hs; simpl; [|done].
  rewrite (reducer_addressed _ a2 e2 t2 w) by done.
  rewrite lookup_insert_eq, with_status_again. by rewrite insert_insert_eq.
Qed.

Lemma reducer_last_wins_witness :
  (reducer (Some initialState) (workerBusy [VStr WORKER_WATCHER])
     ≫= λ s1, reducer (Some s1) (workerReady [VStr WORKER_WATCHER]))
  = reducer (Some initialState) (workerReady [VStr WORKER_WATCHER]).
Proof.
  apply (reducer_last_wins initialState
           (workerBusy [VStr WORKER_WATCHER]) (workerReady [VStr WORKER_WATCHER])
           BUSY READY WORKER_WATCHER).
  - unfold statuses. listed.
  - reflexivity.
  - reflexivity.
  - unfold statuses. listed.
  - reflexivity.
  - reflexivity.
Defined.

(** X8: the reducer never adds or removes a worker and never touches a
    field other than status and error: whatever the action, a state it
    returns has the keys of the state it was given, and every worker has
    its other fields, such as its name, as before. *)
Theorem reducer_keeps_workers (s s' : registry) (a : value) :
  reducer (Some s) a = Ok s' →
  dom s' = dom s ∧
  ∀ w ws, s !! w = Some ws →
    ∃ ws', s' !! w = Some ws' ∧
      ∀ f : string, f ≠ "status" → f ≠ "error" → ws' !! f = ws !! f.
Proof.
  intros [Hdom Hkeep]%reducer_Ok_keeps. split; [done|].
  intros w ws Hw. destruct (Hkeep w ws Hw) as (ws' & Hw' & Hf & _).
  by exists ws'.
Qed.

Lemma reducer_keeps_workers_witness :
  dom (<[WORKER_LINTER := with_status ERROR VNull (offline_worker "Linter")]>
         initialState) = dom initialState ∧
  ∀ w ws, initialState !! w = Some ws →
    ∃ ws', <[WORKER_LINTER := with_status ERROR VNull (offline_worker "Linter")]>
             initialState !! w = Some ws' ∧
      ∀ f : string, f ≠ "status" → f ≠ "error" → ws' !! f = ws !! f.
Proof.
  apply (reducer_keeps_workers initialState _ (workerError [VStr WORKER_LINTER])).
  apply workerError_linter.
Defined.

(** *** Sequences of actions *)

Lemma reduceAll_cons (s : registry) (a : value) (actions : list value) :
  reduceAll s (a :: actions) = reducer (Some s) a ≫= λ s1, reduceAll s1 actions.
Proof.
  unfold reduceAll. simpl. destruct (reducer (Some s) a) as [s1|x]; [done|].
  simpl. induction actions as [|a' actions IH]; [done | exact IH].
Qed.

Lemma reduceAll_keeps (s s' : registry) (actions : list value) :
  reduceAll s actions = Ok s' →
  dom s' = dom s ∧
  ∀ w ws, s !! w = Some ws →
    ∃ ws', s' !! w = Some ws' ∧
      (∀ f : string, f ≠ "status" → f ≠ "error" → ws' !! f = ws !! f) ∧
      ((∃ t, t ∈ statuses ∧ ws !! "status" = Some (VStr t)) →
       ∃ t, t ∈ statuses ∧ ws' !! "status" = Some (VStr t)).
Proof.
  revert s. induction actions as [|a actions IH]; intros s Hall.
  { inversion Hall; subst s'. split; [done|]. intros w ws Hw. by exists ws. }
  rewrite reduceAll_cons in Hall.
  destruct (reducer (Some s) a) as [s1|] eqn:Hred; [|discriminate].
  simpl in Hall. apply reducer_Ok_keeps in Hred as [Hdom1 Hkeep1].
  apply IH in Hall as [Hdom Hkeep]. split; [congruence|].
  intros w ws Hw.
  destruct (Hkeep1 w ws Hw) as (ws1 & Hw1 & Hf1 & Hst1).
  destruct (Hkeep w ws1 Hw1) as (ws' & Hw' & Hf & Hst).
  exists ws'. split; [done|]. split; [|tauto].
  intros f H1 H2. rewrite Hf by done. by apply Hf1.
Qed.

(** X9: the registry invariant holds along every sequence of dispatched
    actions: if the reducer returns a state for each of them in turn, the
    final registry still has exactly the six workers as keys, each with a
    status among the six constants and with the name it started with. *)
Theorem reduceAll_invariant (s s' : registry) (actions : list value) :
  registry_ok s →
  reduceAll s actions = Ok s' →
  registry_ok s' ∧
  ∀ w ws, s !! w = Some ws →
    ∃ ws', s' !! w = Some ws' ∧ ws' !! "name" = ws !! "name".
Proof.
  intros [Hdom Hst] [Hdom' Hkeep]%reduceAll_keeps. split; [split|].
  - congruence.
  - intros w ws' Hw'.
    assert (is_Some (s !! w)) as [ws Hw].
    { apply elem_of_dom. rewrite <- Hdom'. apply elem_of_dom. by exists ws'. }
    destruct (Hkeep w ws Hw) as (ws'' & Hw'' & _ & Hok).
    rewrite Hw' in Hw''. inversion Hw''; subst ws''.
    apply Hok. by apply (Hst w).
  - intros w ws Hw. destruct (Hkeep w ws Hw) as (ws' & Hw' & Hf & _).
    exists ws'. split; [done|]. by apply Hf.
Qed.

Example reduceAll_watch :
  reduceAll initialState
    [Foreman.setGoal [VStr Foreman.GOAL_WATCH]; workerBusy [VStr WORKER_WATCHER]]
  = Ok (<[WORKER_WATCHER := with_status BUSY VNull (offline_worker "Watcher")]>
          initialState).
Proof.
  rewrite reduceAll_cons.
  rewrite (reducer_unhandled _ _ (VStr Foreman.SET_GOAL)); [|reflexivity|].
  - simpl. rewrite reduceAll_cons, workerBusy_watcher. reflexivity.
  - unfold statuses. simpl. intros H.
    repeat (apply elem_of_cons in H as [H | H]; [discriminate H|]).
    by apply elem_of_nil in H.
Qed.

Lemma reduceAll_invariant_witness :
  registry_ok
    (<[WORKER_WATCHER := with_status BUSY VNull (offline_worker "Watcher")]>
       initialState) ∧
  ∀ w ws, initialState !! w = Some ws →
    ∃ ws', <[WORKER_WATCHER := with_status BUSY VNull (offline_worker "Watcher")]>
             initialState !! w = Some ws' ∧
           ws' !! "name" = ws !! "name".
Proof.
  apply (reduceAll_invariant initialState _
           [Foreman.setGoal [VStr Foreman.GOAL_WATCH];
            workerBusy [VStr WORKER_WATCHER]]).
  - apply initialState_ok.
  - apply reduceAll_watch.
Defined.

(** X10: the reducer does not throw on the actions it is meant to see: from
    a registry with the six workers, every sequence of actions that are
    either of a foreign type or status actions addressed to one of the six
    workers is reduced to a state. *)
Theorem reduceAll_succeeds (s : registry) (actions : list value) :
  registry_ok s →
  Forall dispatchable actions →
  ∃ s', reduceAll s actions = Ok s'.
Proof.
  intros Hok Hall. revert s Hok.
  induction Hall as [|a actions Ha _ IH]; intros s Hok; [by exists s|].
  rewrite reduceAll_cons.
  assert (∃ s1, reducer (Some s) a = Ok s1) as [s1 Hred].
  { destruct Ha as [(ty & Hty & Hout) | (t & w & Ht & Hty & Hw & Hin)].
    - exists s. by rewrite (reducer_unhandled _ a ty).
    - destruct (error_of_addressed a _ Hw) as [e He].
      rewrite (reducer_addressed s a e t w) by done.
      assert (is_Some (s !! w)) as [ws ->]; [|by eexists].
      apply elem_of_dom. destruct Hok as [-> _].
      by apply elem_of_list_to_set. }
  rewrite Hred. simpl. apply IH.
  assert (reduceAll s [a] = Ok s1) as Hone.
  { rewrite reduceAll_cons, Hred. reflexivity. }
  destruct Hok as [Hdom Hst].
  apply reduceAll_keeps in Hone as [Hdom1 Hkeep]. split; [congruence|].
  intros w ws1 Hw1.
  assert (is_Some (s !! w)) as [ws Hw].
  { apply elem_of_dom. rewrite <- Hdom1. apply elem_of_dom. by exists ws1. }
  destruct (Hkeep w ws Hw) as (ws' & Hw' & _ & Hstat).
  rewrite Hw1 in Hw'. inversion Hw'; subst ws'.
  apply Hstat. by apply (Hst w).
Qed.

Lemma reduceAll_succeeds_witness :
  ∃ s', reduceAll initialState
          [workerBusy [VStr WORKER_WATCHER];
           Foreman.setGoal [VStr Foreman.GOAL_WATCH];
           workerError [VStr WORKER_LINTER; VStr "boom"]] = Ok s'.
Proof.
  apply (reduceAll_succeeds initialState
           [workerBusy [VStr WORKER_WATCHER];
            Foreman.setGoal [VStr Foreman.GOAL_WATCH];
            workerError [VStr WORKER_LINTER; VStr "boom"]]).
  - apply initialState_ok.
  - constructor; [|constructor; [|constructor; [|constructor]]].
    + right. exists BUSY, WORKER_WATCHER.
      split; [unfold statuses; listed|]. split; [reflexivity|].
      split; [reflexivity | unfold workers; listed].
    + left. exists (VStr Foreman.SET_GOAL). split; [reflexivity|].
      unfold statuses. simpl. intros H.
      repeat (apply elem_of_cons in H as [H | H]; [discriminate H|]).
      by apply elem_of_nil in H.
    + right. exists ERROR, WORKER_LINTER.
      split; [unfold statuses; listed|]. split; [reflexivity|].
      split; [reflexivity | unfold workers; listed].
Defined.

(** X11: a status action that asks for the status and the error a
    registered worker already has leaves the registry as it is. *)
Theorem reducer_noop_when_current (s : registry) (a e : value) (t w : string)
    (ws : gmap string value) :
  t ∈ statuses →
  get a "type" = Ok (VStr t) →
  worker_of a = Ok (VStr w) →
  error_of a = Ok e →
  s !! w = Some ws →
  ws !! "status" = Some (VStr t) →
  ws !! "error" = Some (or_else e VNull) →
  reducer (Some s) a = Ok s.
Proof.
  intros Ht Ha Hw He Hs Hst Herr.
  rewrite (reducer_addressed s a e t w) by done. rewrite Hs.
  rewrite with_status_current by done. by rewrite insert_id.
Qed.

Lemma reducer_noop_when_current_witness :
  reducer (Some initialState) (workerOffline [VStr WORKER_BUNDLER]) = Ok initialState.
Proof.
  apply (reducer_noop_when_current initialState
           (workerOffline [VStr WORKER_BUNDLER]) VUndefined OFFLINE WORKER_BUNDLER
           (offline_worker "Bundler")).
  - unfold statuses. listed.
  - reflexivity.
  - reflexivity.
  - reflexivity.
  - apply initialState_bundler.
  - reflexivity.
  - reflexivity.
Defined.
